(** * The Gemini message bridge (function [call_llm])

    A shallow embedding of
    [apps/briefs/src/.ipynb_checkpoints/llm-checkpoint.py]: the conversion of
    an OpenAI-style transcript into Google [contents], the clamping of the
    temperature, the single remote call and the normalisation of the response
    and of the errors into a pair (text, usage).

    The function prints, mutates the local list [google_contents], calls a
    remote service and catches exceptions; it is embedded in a small monad
    with a state (the list and the output stream) and exceptions.  The remote
    service is a parameter of the model.  Temperatures are binary64 floats,
    as in Python.  Line numbers are those of the source file. *)

From Stdlib Require Import Ascii Floats.PrimFloat Floats.SpecFloat Floats.FloatAxioms.
From stdpp Require Import gmap strings list pretty.

Open Scope string_scope.
Open Scope list_scope.
Open Scope stdpp_scope.

(** ** Python values

    The values a message can carry under its keys: [None], booleans,
    integers, strings and lists of such values.  A string is a sequence of
    characters of code point below 256, one [ascii] each. *)

#[warnings="-register-all"]
Inductive pyval : Type :=
| PyNone
| PyBool (b : bool)
| PyInt (z : Z)
| PyStr (s : string)
| PyList (l : list pyval).

Module Repr.

(** [repr] of a string, as CPython prints it: single quotes unless the
    text has a single quote and no double quote; the quote and the
    backslash are escaped, so are tab, line feed and carriage return, and
    the other characters that are not printable are written [\xhh]: the
    code points 0 to 31, 127 to 160 and 173. *)

Definition dquote : ascii := "034"%char.
Definition squote : ascii := "039"%char.
Definition backslash : ascii := "092"%char.

Definition has_char (c : ascii) (s : string) : bool :=
  existsb (Ascii.eqb c) (String.list_ascii_of_string s).

Definition quote_of (s : string) : ascii :=
  if has_char squote s && negb (has_char dquote s) then dquote else squote.

Definition hex_digit (n : N) : ascii :=
  if (n <? 10)%N then ascii_of_N (48 + n) else ascii_of_N (87 + n).

Definition escape_char (q c : ascii) : string :=
  let n := N_of_ascii c in
  if Ascii.eqb c q || Ascii.eqb c backslash then String backslash (String c "")
  else if (n =? 9)%N then String backslash "t"
  else if (n =? 10)%N then String backslash "n"
  else if (n =? 13)%N then String backslash "r"
  else if (n <? 32)%N || ((127 <=? n)%N && (n <=? 160)%N) || (n =? 173)%N then
    String backslash (String "x" (String (hex_digit (n / 16)) (String (hex_digit (n mod 16)) "")))
  else String c "".

Fixpoint escape (q : ascii) (s : string) : string :=
  match s with
  | EmptyString => ""
  | String c r => escape_char q c +:+ escape q r
  end.

Definition of_str (s : string) : string :=
  let q := quote_of s in String q (escape q s +:+ String q "").

End Repr.

(** [repr(v)]. *)
Fixpoint py_repr (v : pyval) : string :=
  match v with
  | PyNone => "None"
  | PyBool true => "True"
  | PyBool false => "False"
  | PyInt z => pretty z
  | PyStr s => Repr.of_str s
  | PyList l => "[" +:+ String.concat ", " (List.map py_repr l) +:+ "]"
  end.

(** [str(v)], when it returns: a string is itself, every other value
    prints as its [repr].  The interpreter makes [str] and [repr] raise
    beyond its limits (the number of digits of an integer, the depth of
    recursion); this is not modelled, and the properties of the conversion
    are stated for the values of [printable] below. *)
Definition py_str (v : pyval) : string :=
  match v with
  | PyStr s => s
  | _ => py_repr v
  end.

(** Values that [str] and [repr] render whatever the interpreter's limits
    are set to: integers of at most 640 digits (the least value the limit
    on digits can take) and lists nested at most [depth] deep. *)
Fixpoint printable_within (depth : nat) (v : pyval) : bool :=
  match v with
  | PyNone | PyBool _ | PyStr _ => true
  | PyInt z => (Z.abs z <? 10 ^ 640)%Z
  | PyList l =>
      match depth with
      | O => false
      | S depth' => forallb (printable_within depth') l
      end
  end.

Definition printable (v : pyval) : bool := printable_within 32 v.

(** [v == s] for a string literal [s]. *)
Definition py_eq_str (v : pyval) (s : string) : bool :=
  match v with
  | PyStr s' => String.eqb s' s
  | _ => false
  end.

(** The builtins [min(a, b)] and [max(a, b)] on floats: the first argument
    is kept unless the second is strictly smaller (resp. greater). *)
Definition py_min (a b : float) : float := if PrimFloat.ltb b a then b else a.
Definition py_max (a b : float) : float := if PrimFloat.ltb a b then b else a.

(** Line 79: [max(0.0, min(1.0, temperature))]. *)
Definition clamp (temperature : float) : float :=
  py_max 0%float (py_min 1%float temperature).

(** ** Data *)

(** A message of the transcript: a [dict] with string keys. *)
Abbreviation message := (gmap string pyval).

(** [{'text': ...}] *)
Record Part : Type := { text : string }.

(** [{'role': ..., 'parts': [...]}], the provider's [Content]. *)
Record Content : Type := { role : pyval; parts : list Part }.

Record Candidate : Type := {
  content : option Content;   (* [None]: the candidate carries no content *)
  finish_reason : pyval;
  safety_ratings : pyval
}.

Record PromptFeedback : Type := {
  block_reason : pyval;
  feedback_safety_ratings : pyval
}.

Abbreviation usage := (gmap string Z).

Record GenerateContentResponse : Type := {
  candidates : list Candidate;
  prompt_feedback : option PromptFeedback;
  usage_metadata : option usage  (* [None]: the attribute is missing or [None] *)
}.

(** What [call_llm] returns: the pair (string, usage).  The constructor
    records which [return] produced the pair: [Text] is the one of the
    generated text (line 99), [ErrorText] every other one. *)
Inductive CallResult : Type :=
| Text (text : string) (usage_data : option usage)
| ErrorText (errorText : string) (usage_data : option usage).

Definition as_tuple (r : CallResult) : string * option usage :=
  match r with
  | Text s u => (s, u)
  | ErrorText s u => (s, u)
  end.

Definition result_usage (r : CallResult) : option usage := (as_tuple r).2.

Definition is_error (r : CallResult) : bool :=
  match r with
  | Text _ _ => false
  | ErrorText _ _ => true
  end.

(** ** Exceptions *)

Inductive exc_class : Type :=
| PermissionDenied
| ResourceExhausted
| NotFound
| InvalidArgument
| OtherError (name : string)       (* any other class under [Exception] *)
| NotAnException (name : string).  (* a class outside [Exception]:
                                      [KeyboardInterrupt], [SystemExit],
                                      [GeneratorExit] *)

Record exc : Type := {
  exc_type : exc_class;
  exc_str : string;                     (* [str(e)] *)
  exc__class_name_ : option pyval       (* [e._class.name_], [None] when [e]
                                           has no attribute [_class]; an
                                           object with [_class] and without
                                           [name_] is not represented *)
}.

Definition class_name (c : exc_class) : string :=
  match c with
  | PermissionDenied => "PermissionDenied"
  | ResourceExhausted => "ResourceExhausted"
  | NotFound => "NotFound"
  | InvalidArgument => "InvalidArgument"
  | OtherError name => name
  | NotAnException name => name
  end.

(** The [AttributeError] of [e._class] on an object without that attribute. *)
Definition attribute_error (e : exc) : exc :=
  {| exc_type := OtherError "AttributeError";
     exc_str := "'" +:+ class_name (exc_type e) +:+ "' object has no attribute '_class'";
     exc__class_name_ := None |}.

(** ** Effects *)

(** The lines [call_llm] prints, by the [print] that writes them, and the
    remote call. *)
Inductive event : Type :=
| LogAttempt (model : string) (temperature : float)                 (* line 54 *)
| LogNotConfigured                                                  (* line 58 *)
| LogSkipping (msg : message)                                       (* line 71 *)
| LogNoValidMessages                                                (* line 75 *)
| LogSending (google_contents : list Content)                       (* line 83 *)
| GenerateContent (model : string) (contents : list Content) (temperature : float)
                                                                    (* line 85 *)
| LogSuccessful                                                     (* line 98 *)
| LogNoContentParts (finish_reason safety_ratings : pyval)          (* line 103 *)
| LogCallFailed (block_reason safety_ratings : pyval)               (* line 108 *)
| LogPermissionDenied (e : exc)                                     (* line 113 *)
| LogQuotaExceeded (e : exc)                                        (* line 116 *)
| LogNotFound (model : string) (e : exc)                            (* line 119 *)
| LogInvalidArgument (e : exc)                                      (* line 122 *)
| LogOriginalMessages (messages : list message)                     (* lines 123, 129 *)
| LogConvertedContents (google_contents : list Content)             (* lines 124, 130 *)
| LogUnexpected (name : pyval) (e : exc).                           (* line 128 *)

Definition is_remote_call (ev : event) : bool :=
  match ev with
  | GenerateContent _ _ _ => true
  | _ => false
  end.

Definition is_skipping (ev : event) : bool :=
  match ev with
  | LogSkipping _ => true
  | _ => false
  end.

Inductive outcome (A : Type) : Type :=
| Returned (a : A)
| Raised (e : exc).
Arguments Returned {A} a.
Arguments Raised {A} e.

Record state : Type := {
  google_contents : list Content;   (* the local list of [call_llm] *)
  trace : list event                (* what was printed and called, in order *)
}.

Definition initial : state := {| google_contents := []; trace := [] |}.

Module M.

Definition t (A : Type) : Type := state -> outcome A * state.

Definition ret {A} (a : A) : t A := fun s => (Returned a, s).

Definition bind {A B} (m : t A) (f : A -> t B) : t B :=
  fun s =>
    match m s with
    | (Returned a, s') => f a s'
    | (Raised e, s') => (Raised e, s')
    end.

Definition raise {A} (e : exc) : t A := fun s => (Raised e, s).

(** [try: m except e: h e]; what [m] did before it raised stays done. *)
Definition try {A} (m : t A) (h : exc -> t A) : t A :=
  fun s =>
    match m s with
    | (Returned a, s') => (Returned a, s')
    | (Raised e, s') => h e s'
    end.

Definition emit (ev : event) : t unit :=
  fun s => (Returned tt,
            {| google_contents := google_contents s; trace := trace s ++ [ev] |}).

Definition get_contents : t (list Content) :=
  fun s => (Returned (google_contents s), s).

Definition set_contents (l : list Content) : t unit :=
  fun s => (Returned tt, {| google_contents := l; trace := trace s |}).

(** [google_contents.append(c)] *)
Definition append (c : Content) : t unit :=
  fun s => (Returned tt,
            {| google_contents := google_contents s ++ [c]; trace := trace s |}).

(** [for x in l: body x] *)
Fixpoint for_each {A} (l : list A) (body : A -> t unit) : t unit :=
  match l with
  | [] => ret tt
  | x :: l' => bind (body x) (fun _ => for_each l' body)
  end.

End M.

Declare Scope py_scope.
Delimit Scope py_scope with py.
Notation "x <- m ;; k" := (M.bind m (fun x => k))
  (at level 20, m at level 99, k at level 200, only parsing) : py_scope.
Notation "m ;; k" := (M.bind m (fun _ => k))
  (at level 100, k at level 200, only parsing, right associativity) : py_scope.

(** ** [call_llm] *)

Section CallLlm.

(** The module's flag and the remote service: what lines 81-90 (building
    the model object and the generation configuration, then
    [generate_content]) end with for a model name, a list of contents and a
    temperature, a response or an exception. *)
Variable IS_API_KEY_CONFIGURED : bool.
Variable remote : string -> list Content -> float -> outcome GenerateContentResponse.

Definition generate_content (model : string) (contents : list Content)
    (temperature : float) : M.t GenerateContentResponse :=
  fun s => (remote model contents temperature,
            {| google_contents := google_contents s;
               trace := trace s ++ [GenerateContent model contents temperature] |}).

(** Lines 66-71, the body of the loop.  [str] is taken to return (see
    [py_str]). *)
Definition convert_message (msg : message) : M.t unit :=
  match msg !! "role", msg !! "content" with
  | Some msg_role, Some msg_content =>
      let role := if py_eq_str msg_role "assistant" then PyStr "model" else msg_role in
      M.append {| role := role; parts := [ {| text := py_str msg_content |} ] |}
  | _, _ => M.emit (LogSkipping msg)
  end.

(** Lines 92-109, after the remote call has answered. *)
Definition extract (response : GenerateContentResponse) : M.t CallResult :=
  (let usage_data := usage_metadata response in
   match candidates response with
   | candidate :: _ =>
       match content candidate with
       | Some (Build_Content _ (p :: ps)) =>
           let generated_text := String.concat "" (List.map text (p :: ps)) in
           M.emit LogSuccessful ;;
           M.ret (Text generated_text usage_data)
       | _ =>
           let finish_reason := finish_reason candidate in
           let safety_ratings := safety_ratings candidate in
           M.emit (LogNoContentParts finish_reason safety_ratings) ;;
           M.ret (ErrorText
                    ("Error: Generation finished without content. Reason: "
                     +:+ py_str finish_reason) usage_data)
       end
   | [] =>
       let block_reason :=
         match prompt_feedback response with
         | Some f => block_reason f
         | None => PyStr "UNKNOWN"
         end in
       let safety_ratings :=
         match prompt_feedback response with
         | Some f => feedback_safety_ratings f
         | None => PyStr "UNKNOWN"
         end in
       M.emit (LogCallFailed block_reason safety_ratings) ;;
       M.ret (ErrorText
                ("Error: LLM call failed. Prompt Block Reason: "
                 +:+ py_str block_reason) usage_data)
   end)%py.

(** Lines 63-109, the body of the [try]. *)
Definition try_body (model : string) (messages : list message)
    (temperature : float) : M.t CallResult :=
  (M.for_each messages convert_message ;;
   google_contents <- M.get_contents ;;
   match google_contents with
   | [] =>
       M.emit LogNoValidMessages ;;
       M.ret (ErrorText "Error: No valid messages to send" None)
   | _ :: _ =>
       let temperature := clamp temperature in
       M.emit (LogSending google_contents) ;;
       response <- generate_content model google_contents temperature ;;
       extract response
   end)%py.

(** Lines 112-131, the handlers, tried in this order; an exception that
    none of them matches stays raised. *)
Definition handlers (model : string) (messages : list message)
    (e : exc) : M.t CallResult :=
  (match exc_type e with
   | PermissionDenied =>
       M.emit (LogPermissionDenied e) ;;
       M.ret (ErrorText ("Error: Permission Denied - " +:+ exc_str e) None)
   | ResourceExhausted =>
       M.emit (LogQuotaExceeded e) ;;
       M.ret (ErrorText ("Error: Quota Exceeded - " +:+ exc_str e) None)
   | NotFound =>
       M.emit (LogNotFound model e) ;;
       M.ret (ErrorText ("Error: Not Found - " +:+ exc_str e) None)
   | InvalidArgument =>
       M.emit (LogInvalidArgument e) ;;
       M.emit (LogOriginalMessages messages) ;;
       google_contents <- M.get_contents ;;
       M.emit (LogConvertedContents google_contents) ;;
       M.ret (ErrorText ("Error: Invalid Argument - " +:+ exc_str e) None)
   | OtherError _ =>
       (* the f-string of line 128 is evaluated before anything is printed *)
       match exc__class_name_ e with
       | None => M.raise (attribute_error e)
       | Some name =>
           M.emit (LogUnexpected name e) ;;
           M.emit (LogOriginalMessages messages) ;;
           google_contents <- M.get_contents ;;
           M.emit (LogConvertedContents google_contents) ;;
           M.ret (ErrorText ("Error calling LLM: " +:+ py_str name +:+ " - "
                             +:+ exc_str e) None)
       end
   | NotAnException _ => M.raise e
   end)%py.

Definition call_llm (model : string) (messages : list message)
    (temperature : float) : M.t CallResult :=
  (M.emit (LogAttempt model temperature) ;;
   if negb IS_API_KEY_CONFIGURED then
     M.emit LogNotConfigured ;;
     M.ret (ErrorText "Error: Library not configured" None)
   else
     M.set_contents [] ;;
     M.try (try_body model messages temperature) (handlers model messages))%py.

(** One call, from a fresh output stream: what it returns or raises, and
    what it printed and called. *)
Definition run (model : string) (messages : list message) (temperature : float)
    : outcome CallResult * list event :=
  let '(r, s) := call_llm model messages temperature initial in (r, trace s).

End CallLlm.

(** * Properties *)

(** ** The conversion loop *)

(** What the loop of lines 65-71 leaves in [google_contents], and what it
    prints, on a transcript. *)
Definition converted (messages : list message) : list Content :=
  google_contents (M.for_each messages convert_message initial).2.

Definition skipped (messages : list message) : list event :=
  trace (M.for_each messages convert_message initial).2.

(** A message that has both keys. *)
Definition well_formed (msg : message) : Prop :=
  is_Some (msg !! "role") ∧ is_Some (msg !! "content").

#[global] Instance well_formed_dec (msg : message) : Decision (well_formed msg).
Proof. unfold well_formed. apply _. Defined.

(** The entry of a message, when it has one. *)
Definition provider_message (msg : message) : option Content :=
  match msg !! "role", msg !! "content" with
  | Some r, Some c =>
      Some {| role := if py_eq_str r "assistant" then PyStr "model" else r;
              parts := [ {| text := py_str c |} ] |}
  | _, _ => None
  end.

Definition skip_event (msg : message) : list event :=
  match provider_message msg with
  | Some _ => []
  | None => [LogSkipping msg]
  end.

(** What follows the remote call: the outcome of [call_llm] and what it
    prints then, from the answer of the remote service. *)
Definition after_call
    (remote : string -> list Content -> float -> outcome GenerateContentResponse)
    (model : string) (messages : list message) (contents : list Content)
    (temperature : float) : outcome CallResult * list event :=
  match remote model contents temperature with
  | Returned response =>
      let '(o, s) := extract response initial in (o, trace s)
  | Raised e =>
      let '(o, s) :=
        handlers model messages e {| google_contents := contents; trace := [] |} in
      (o, trace s)
  end.




(** A message all of whose values [str] and [repr] render. *)
Definition printable_message (msg : message) : Prop :=
  map_Forall (λ _ v, printable v = true) msg.

#[global] Instance printable_message_dec (msg : message) :
  Decision (printable_message msg).
Proof. unfold printable_message. apply _. Defined.

(** The remote calls of a trace. *)
Definition remote_calls (tr : list event) : list event :=
  List.filter is_remote_call tr.

(** ** Sample inputs *)

Definition msg_hello : message :=
  {[ "role" := PyStr "user"; "content" := PyStr "hello" ]}.

Definition msg_assistant : message :=
  {[ "role" := PyStr "assistant"; "content" := PyInt 42 ]}.

Definition msg_null_content : message :=
  {[ "role" := PyStr "user"; "content" := PyNone ]}.

Definition msg_no_content : message := {[ "role" := PyStr "user" ]}.

Definition msg_no_role : message := {[ "content" := PyStr "hello" ]}.

Definition usage_5_2 : usage :=
  {[ "promptTokens" := 5%Z; "completionTokens" := 2%Z ]}.

Definition contents_hello : list Content :=
  [ {| role := PyStr "user"; parts := [ {| text := "hello" |} ] |} ].

Definition candidate_hi_there : Candidate :=
  {| content := Some {| role := PyStr "model"; parts := [ {| text := "hi there" |} ] |};
     finish_reason := PyStr "STOP";
     safety_ratings := PyList [] |}.

Definition response_hi_there : GenerateContentResponse :=
  {| candidates := [ candidate_hi_there ];
     prompt_feedback := None;
     usage_metadata := Some usage_5_2 |}.

Definition candidate_two_parts : Candidate :=
  {| content := Some {| role := PyStr "model";
                        parts := [ {| text := "hi " |}; {| text := "there" |} ] |};
     finish_reason := PyStr "STOP";
     safety_ratings := PyList [] |}.

Definition candidate_blocked : Candidate :=
  {| content := None; finish_reason := PyStr "SAFETY"; safety_ratings := PyList [] |}.

Definition response_blocked : GenerateContentResponse :=
  {| candidates := [ candidate_blocked ];
     prompt_feedback := None;
     usage_metadata := Some usage_5_2 |}.

Definition value_error : exc :=
  {| exc_type := OtherError "ValueError"; exc_str := "boom"; exc__class_name_ := None |}.

Definition quota_error : exc :=
  {| exc_type := ResourceExhausted;
     exc_str := "429 Resource has been exhausted";
     exc__class_name_ := None |}.

Definition remote_answers (response : GenerateContentResponse)
    : string -> list Content -> float -> outcome GenerateContentResponse :=
  fun _ _ _ => Returned response.

Definition remote_raises (e : exc)
    : string -> list Content -> float -> outcome GenerateContentResponse :=
  fun _ _ _ => Raised e.

(** ** The module body (lines 8-35)

    Run once, when the module is imported: it loads a [.env] file into the
    process environment, then configures the library with the key found
    there and sets [IS_API_KEY_CONFIGURED].  *)

Inductive init_event : Type :=
| InitLoading (dotenv_path : string)        (* line 12 *)
| InitNotFound                              (* line 15 *)
| InitAttemptedDefault                      (* line 18 *)
| InitDefaultFailed (e : exc)               (* line 20 *)
| InitConfigured                            (* line 28 *)
| InitKeyNotFound                           (* line 31 *)
| InitConfigureError (e : exc).             (* line 35 *)

Record init_result : Type := {
  init_outcome : outcome bool;              (* the flag, or the exception that
                                               ends the import *)
  init_environ : gmap string string;        (* [os.environ] afterwards *)
  init_stdout : list init_event
}.

(** The [KeyError] of [os.environ[key]]. *)
Definition key_error (key : string) : exc :=
  {| exc_type := OtherError "KeyError";
     exc_str := "'" +:+ key +:+ "'";
     exc__class_name_ := None |}.

(** [except KeyError]: the class [KeyError] itself. *)
Definition is_key_error (e : exc) : bool :=
  match exc_type e with
  | OtherError name => String.eqb name "KeyError"
  | _ => false
  end.

(** [except Exception]: every class but those outside [Exception]. *)
Definition is_exception (e : exc) : bool :=
  match exc_type e with
  | NotAnException _ => false
  | _ => true
  end.

Section ModuleBody.

(** What [find_dotenv()] returned (the empty string when no file is found),
    [load_dotenv], which may change the environment and may raise, with the
    path it is given if any, and [genai.configure]. *)
Variable dotenv_path : string.
Variable load_dotenv :
  option string -> gmap string string -> outcome bool * gmap string string.
Variable configure : string -> outcome unit.

(** Lines 10-20. *)
Definition load_env (environ : gmap string string)
    : outcome unit * gmap string string * list init_event :=
  match dotenv_path with
  | String _ _ =>
      let '(o, environ') := load_dotenv (Some dotenv_path) environ in
      match o with
      | Returned _ => (Returned tt, environ', [InitLoading dotenv_path])
      | Raised e => (Raised e, environ', [InitLoading dotenv_path])
      end
  | EmptyString =>
      let '(o, environ') := load_dotenv None environ in
      match o with
      | Returned _ => (Returned tt, environ', [InitNotFound; InitAttemptedDefault])
      | Raised e =>
          if is_exception e
          then (Returned tt, environ', [InitNotFound; InitDefaultFailed e])
          else (Raised e, environ', [InitNotFound])
      end
  end.

(** Lines 24-35: the body of the [try] and its two handlers; an exception
    that neither matches ends the import. *)
Definition configure_key (environ : gmap string string)
    : outcome bool * list init_event :=
  let attempt : outcome unit :=
    match environ !! "GOOGLE_API_KEY" with
    | Some api_key => configure api_key
    | None => Raised (key_error "GOOGLE_API_KEY")
    end in
  match attempt with
  | Returned _ => (Returned true, [InitConfigured])
  | Raised e =>
      if is_key_error e then (Returned false, [InitKeyNotFound])
      else if is_exception e then (Returned false, [InitConfigureError e])
      else (Raised e, [])
  end.

(** Lines 11-35, once [find_dotenv()] has returned [dotenv_path]. *)
Definition module_body (environ : gmap string string) : init_result :=
  match load_env environ with
  | (Raised e, environ', out) =>
      {| init_outcome := Raised e; init_environ := environ'; init_stdout := out |}
  | (Returned _, environ', out) =>
      let '(flag, out') := configure_key environ' in
      {| init_outcome := flag;
         init_environ := environ';
         init_stdout := out ++ out' |}
  end.

End ModuleBody.

(** Lines 10-35: [find_dotenv()] is called outside any [try]. *)
Definition module_import (find_dotenv : outcome string)
    (load_dotenv :
       option string -> gmap string string -> outcome bool * gmap string string)
    (configure : string -> outcome unit)
    (environ : gmap string string) : init_result :=
  match find_dotenv with
  | Returned dotenv_path => module_body dotenv_path load_dotenv configure environ
  | Raised e =>
      {| init_outcome := Raised e; init_environ := environ; init_stdout := [] |}
  end.

Definition environ_with_key : gmap string string :=
  {[ "GOOGLE_API_KEY" := "secret"; "HOME" := "/root" ]}.

Definition environ_without_key : gmap string string := {[ "HOME" := "/root" ]}.

Definition load_dotenv_nothing
    : option string -> gmap string string -> outcome bool * gmap string string :=
  fun _ environ => (Returned false, environ).

Definition load_dotenv_fails
    : option string -> gmap string string -> outcome bool * gmap string string :=
  fun _ environ => (Raised value_error, environ).

(** A [.env] file that sets the key, loaded with [override=True]. *)
Definition load_dotenv_sets_key
    : option string -> gmap string string -> outcome bool * gmap string string :=
  fun _ environ => (Returned true, <[ "GOOGLE_API_KEY" := "from-dotenv" ]> environ).

Definition configure_ok : string -> outcome unit := fun _ => Returned tt.

Definition configure_fails : string -> outcome unit := fun _ => Raised value_error.


Definition response_no_candidates : GenerateContentResponse :=
  {| candidates := [];
     prompt_feedback := Some {| block_reason := PyStr "SAFETY";
                                feedback_safety_ratings := PyList [] |};
     usage_metadata := Some usage_5_2 |}.

Definition keyboard_interrupt : exc :=
  {| exc_type := NotAnException "KeyboardInterrupt";
     exc_str := "";
     exc__class_name_ := None |}.

Definition msg_system : message :=
  {[ "role" := PyStr "system"; "content" := PyStr "be brief" ]}.

Lemma provider_message_Some (msg : message) :
  well_formed msg <-> is_Some (provider_message msg).
Proof.
  unfold well_formed, provider_message.
  destruct (msg !! "role"), (msg !! "content"); split;
    rewrite ?is_Some_alt; intuition.
Qed.

Lemma convert_message_spec (msg : message) (s : state) :
  convert_message msg s =
    (Returned tt,
     match provider_message msg with
     | Some c => {| google_contents := google_contents s ++ [c]; trace := trace s |}
     | None => {| google_contents := google_contents s;
                  trace := trace s ++ [LogSkipping msg] |}
     end).
Proof.
  unfold convert_message, provider_message.
  destruct (msg !! "role"), (msg !! "content"); reflexivity.
Qed.

Lemma for_each_convert (messages : list message) (s : state) :
  M.for_each messages convert_message s =
    (Returned tt,
     {| google_contents := google_contents s ++ omap provider_message messages;
        trace := trace s ++ concat (skip_event <$> messages) |}).
Proof.
  revert s. induction messages as [|msg messages IH]; intros s; simpl.
  - destruct s; unfold M.ret; simpl. by rewrite !app_nil_r.
  - unfold M.bind. rewrite convert_message_spec, IH.
    unfold skip_event at 2.
    destruct (provider_message msg); simpl; by rewrite <- ?app_assoc.
Qed.

Lemma converted_omap (messages : list message) :
  converted messages = omap provider_message messages.
Proof. unfold converted. by rewrite for_each_convert. Qed.

Lemma skipped_concat (messages : list message) :
  skipped messages = concat (skip_event <$> messages).
Proof. unfold skipped. by rewrite for_each_convert. Qed.

Lemma skipped_filter (messages : list message) :
  skipped messages = LogSkipping <$> filter (λ msg, ¬ well_formed msg) messages.
Proof.
  rewrite skipped_concat.
  induction messages as [|msg messages IH]; [done|].
  rewrite fmap_cons, filter_cons. change (concat (?x :: ?l)) with (x ++ concat l).
  rewrite IH. unfold skip_event.
  pose proof (provider_message_Some msg) as Hwf.
  destruct (provider_message msg) eqn:E; case_decide as Hd; simpl; try done.
  - exfalso. apply Hd, Hwf. by eexists.
  - apply Hwf in Hd. by destruct Hd.
Qed.

Lemma converted_filter (messages : list message) :
  converted messages = converted (filter well_formed messages).
Proof.
  rewrite !converted_omap.
  induction messages as [|msg messages IH]; [done|].
  rewrite filter_cons. pose proof (provider_message_Some msg) as Hwf.
  change (omap provider_message (msg :: messages))
    with (match provider_message msg with
          | Some c => c :: omap provider_message messages
          | None => omap provider_message messages
          end).
  case_decide as Hd.
  - change (omap provider_message (msg :: filter well_formed messages))
      with (match provider_message msg with
            | Some c => c :: omap provider_message (filter well_formed messages)
            | None => omap provider_message (filter well_formed messages)
            end).
    by rewrite IH.
  - destruct (provider_message msg) eqn:E; [|done].
    exfalso. apply Hd, Hwf. by eexists.
Qed.

Lemma skipped_no_remote_call (messages : list message) :
  Forall (λ ev, is_remote_call ev = false) (skipped messages).
Proof.
  rewrite skipped_filter. apply Forall_fmap, Forall_forall. by intros.
Qed.

(** ** The shape of a call *)

Lemma clamp_cases (t : float) :
  clamp t = t ∨ clamp t = 0%float ∨ clamp t = 1%float.
Proof.
  unfold clamp, py_min, py_max.
  destruct (PrimFloat.ltb t 1); [destruct (PrimFloat.ltb 0 t)|]; auto.
Qed.

Lemma clamp_idempotent (t : float) : clamp (clamp t) = clamp t.
Proof.
  unfold clamp, py_min, py_max.
  destruct (PrimFloat.ltb t 1) eqn:H1; [|reflexivity].
  destruct (PrimFloat.ltb 0 t) eqn:H0; [|reflexivity].
  by rewrite H1, H0.
Qed.

(** The answer is read and the handlers run the same way whatever was
    printed before; they only add to the output. *)
Lemma extract_frame (response : GenerateContentResponse) (s : state) :
  extract response s =
    ((extract response initial).1,
     {| google_contents := google_contents s;
        trace := trace s ++ trace (extract response initial).2 |}).
Proof.
  unfold extract. destruct (candidates response) as [|candidate ?].
  - reflexivity.
  - destruct (content candidate) as [[? [|? ?]]|]; reflexivity.
Qed.

Lemma extract_returns (response : GenerateContentResponse) :
  ∃ r ev, extract response initial =
            (Returned r, {| google_contents := []; trace := [ev] |})
          ∧ is_remote_call ev = false
          ∧ result_usage r = usage_metadata response.
Proof.
  unfold extract. destruct (candidates response) as [|candidate ?].
  - eexists _, _. split; [reflexivity|done].
  - destruct (content candidate) as [[? [|? ?]]|];
      (eexists _, _; split; [reflexivity|done]).
Qed.

Lemma handlers_frame (model : string) (messages : list message) (e : exc) (s : state) :
  handlers model messages e s =
    let r := handlers model messages e
               {| google_contents := google_contents s; trace := [] |} in
    (r.1, {| google_contents := google_contents s; trace := trace s ++ trace r.2 |}).
Proof.
  unfold handlers. destruct s as [gc tr].
  destruct (exc_type e); simpl; try reflexivity;
    try (unfold M.bind, M.emit, M.get_contents, M.ret; simpl;
         by rewrite <- ?app_assoc).
  - destruct (exc__class_name_ e).
    + unfold M.bind, M.emit, M.get_contents, M.ret; simpl. by rewrite <- ?app_assoc.
    + unfold M.raise. simpl. by rewrite app_nil_r.
  - unfold M.raise. simpl. by rewrite app_nil_r.
Qed.

Lemma handlers_no_remote_call (model : string) (messages : list message)
    (e : exc) (gc : list Content) :
  Forall (λ ev, is_remote_call ev = false)
    (trace (handlers model messages e {| google_contents := gc; trace := [] |}).2).
Proof.
  unfold handlers.
  destruct (exc_type e); [..|destruct (exc__class_name_ e)|];
    cbv [M.bind M.emit M.get_contents M.ret M.raise snd trace app google_contents];
    repeat constructor.
Qed.

Lemma after_call_no_remote_call remote model messages gc t :
  Forall (λ ev, is_remote_call ev = false)
    (after_call remote model messages gc t).2.
Proof.
  unfold after_call. destruct (remote model gc t) as [response|e].
  - destruct (extract_returns response) as (r & ev & -> & Hev & _).
    by repeat constructor.
  - pose proof (handlers_no_remote_call model messages e gc) as H.
    by destruct (handlers _ _ _ _).
Qed.

Lemma run_not_configured remote model messages t :
  run false remote model messages t =
    (Returned (ErrorText "Error: Library not configured" None),
     [LogAttempt model t; LogNotConfigured]).
Proof. reflexivity. Qed.

Lemma run_configured remote model messages t :
  run true remote model messages t =
    match converted messages with
    | [] =>
        (Returned (ErrorText "Error: No valid messages to send" None),
         LogAttempt model t :: skipped messages ++ [LogNoValidMessages])
    | gc =>
        ((after_call remote model messages gc (clamp t)).1,
         LogAttempt model t :: skipped messages
           ++ [LogSending gc; GenerateContent model gc (clamp t)]
           ++ (after_call remote model messages gc (clamp t)).2)
    end.
Proof.
  rewrite converted_omap, skipped_concat.
  unfold run, call_llm, after_call. simpl.
  unfold M.bind at 1. simpl. unfold M.bind at 1. simpl.
  unfold M.try, try_body. unfold M.bind at 1.
  rewrite for_each_convert. simpl.
  unfold M.bind at 1. simpl.
  destruct (omap provider_message messages) as [|c gc] eqn:E; [reflexivity|].
  unfold M.bind at 1. simpl. unfold M.bind at 1.
  unfold generate_content at 1. simpl.
  destruct (remote model (c :: gc) (clamp t)) as [response|e].
  - rewrite extract_frame. simpl.
    destruct (extract_returns response) as (r & ev & -> & _). simpl.
    by rewrite <- !app_assoc.
  - rewrite handlers_frame. simpl.
    destruct (handlers _ _ _ _) as [o s']. simpl.
    by rewrite <- !app_assoc.
Qed.

(** A remote call is made only by a configured bridge, once the loop has
    left something to send; it carries the model, the converted transcript
    and the clamped temperature. *)
Lemma remote_call_inv cfg remote model messages t m c t' :
  GenerateContent m c t' ∈ (run cfg remote model messages t).2 →
  cfg = true ∧ converted messages ≠ [] ∧ m = model ∧ c = converted messages
  ∧ t' = clamp t.
Proof.
  destruct cfg.
  - rewrite run_configured.
    pose proof (skipped_no_remote_call messages) as Hs.
    destruct (converted messages) as [|c0 gc] eqn:E; simpl; intros Hin.
    + apply elem_of_cons in Hin as [?|Hin]; [done|].
      apply elem_of_app in Hin as [Hin|Hin].
      * rewrite Forall_forall in Hs. by apply Hs in Hin.
      * apply list_elem_of_singleton in Hin. done.
    + pose proof (after_call_no_remote_call remote model messages (c0 :: gc) (clamp t)) as Ha.
      apply elem_of_cons in Hin as [?|Hin]; [done|].
      apply elem_of_app in Hin as [Hin|Hin].
      * rewrite Forall_forall in Hs. by apply Hs in Hin.
      * apply elem_of_cons in Hin as [?|Hin]; [done|].
        apply elem_of_cons in Hin as [Heq|Hin].
        -- by inversion Heq.
        -- rewrite Forall_forall in Ha. by apply Ha in Hin.
  - rewrite run_not_configured. simpl. intros Hin.
    apply elem_of_cons in Hin as [?|Hin]; [done|].
    apply list_elem_of_singleton in Hin. done.
Qed.

Lemma filter_no_remote_call (tr : list event) :
  Forall (λ ev, is_remote_call ev = false) tr → remote_calls tr = [].
Proof.
  unfold remote_calls. induction 1 as [|ev tr Hev _ IH]; [done|].
  simpl. by rewrite Hev.
Qed.

Lemma remote_calls_app (tr1 tr2 : list event) :
  remote_calls (tr1 ++ tr2) = remote_calls tr1 ++ remote_calls tr2.
Proof. apply List.filter_app. Qed.

(** Once the transcript is converted, a call returns, except when the
    remote call raises an exception that only the last handler catches and
    that has no attribute [_class] (the handler then raises in its turn), or
    an exception of a class outside [Exception], which no handler catches. *)
Lemma call_llm_returns_unless_generic cfg remote model messages t :
  (∃ r, (run cfg remote model messages t).1 = Returned r)
  ∨ (∃ e name,
        remote model (converted messages) (clamp t) = Raised e
        ∧ exc_type e = OtherError name
        ∧ exc__class_name_ e = None
        ∧ (run cfg remote model messages t).1 = Raised (attribute_error e))
  ∨ (∃ e name,
        remote model (converted messages) (clamp t) = Raised e
        ∧ exc_type e = NotAnException name
        ∧ (run cfg remote model messages t).1 = Raised e).
Proof.
  destruct cfg; [|left; by eexists].
  rewrite run_configured.
  destruct (converted messages) as [|c gc]; [left; by eexists|].
  unfold after_call.
  destruct (remote model (c :: gc) (clamp t)) as [response|e] eqn:Hr.
  - destruct (extract_returns response) as (r & ev & -> & _). left. by eexists.
  - unfold handlers.
    destruct (exc_type e) eqn:Ht; try (left; by eexists).
    + destruct (exc__class_name_ e) eqn:Hn; [left; by eexists|].
      right. left. by eexists _, _.
    + right. right. by eexists _, _.
Qed.

Lemma generic_handler_raises remote model messages t e name :
  converted messages ≠ [] →
  remote model (converted messages) (clamp t) = Raised e →
  exc_type e = OtherError name →
  exc__class_name_ e = None →
  (run true remote model messages t).1 = Raised (attribute_error e).
Proof.
  intros Hne Hrem Hty Hattr. rewrite run_configured.
  destruct (converted messages) as [|c gc]; [done|].
  unfold after_call. rewrite Hrem. unfold handlers. by rewrite Hty, Hattr.
Qed.

(** ** The claims *)

(** C1 (fails on the code, at this input): the remote call raises a
    [ValueError]; the last handler formats [e._class.name_], which a
    [ValueError] does not have, and [call_llm] raises an [AttributeError]
    instead of returning a pair. *)
Theorem C1_generic_handler_raises :
  run true (remote_raises value_error) "m1" [msg_hello] 0%float
  = (Raised {| exc_type := OtherError "AttributeError";
               exc_str := "'ValueError' object has no attribute '_class'";
               exc__class_name_ := None |},
     [ LogAttempt "m1" 0%float;
       LogSending contents_hello;
       GenerateContent "m1" contents_hello 0%float ]).
Proof. reflexivity. Qed.

(** C2: on a message that has a role and a content that [str] renders,
    the loop body appends one entry; the entry's role is ["model"] when the
    message's role is ["assistant"], ["user"] when it is ["user"], and the
    message's role itself whenever that is not ["assistant"]: every role
    has exactly one image. *)
Theorem C2_role_mapping (msg : message) (r c : pyval) (s : state) :
  msg !! "role" = Some r →
  msg !! "content" = Some c →
  printable c = true →
  ∃ entry,
    convert_message msg s
      = (Returned tt,
         {| google_contents := google_contents s ++ [entry]; trace := trace s |})
    ∧ (r = PyStr "assistant" → role entry = PyStr "model")
    ∧ (r = PyStr "user" → role entry = PyStr "user")
    ∧ (r ≠ PyStr "assistant" → role entry = r).
Proof.
  intros Hr Hc _. unfold convert_message. rewrite Hr, Hc.
  eexists. split; [reflexivity|]. simpl.
  split; [by intros ->|]. split; [by intros ->|].
  intros Hne. destruct r as [| | |name|]; try reflexivity.
  simpl. destruct (String.eqb_spec name "assistant"); congruence.
Qed.

Lemma C2_role_mapping_witness :
  msg_assistant !! "role" = Some (PyStr "assistant")
  ∧ msg_assistant !! "content" = Some (PyInt 42)
  ∧ printable (PyInt 42) = true
  ∧ ∃ entry,
      convert_message msg_assistant initial
        = (Returned tt, {| google_contents := [] ++ [entry]; trace := [] |})
      ∧ (PyStr "assistant" = PyStr "assistant" → role entry = PyStr "model")
      ∧ (PyStr "assistant" = PyStr "user" → role entry = PyStr "user")
      ∧ (PyStr "assistant" ≠ PyStr "assistant" → role entry = PyStr "assistant").
Proof.
  split; [reflexivity|]. split; [reflexivity|]. split; [by vm_compute|].
  apply (C2_role_mapping msg_assistant (PyStr "assistant") (PyInt 42) initial);
    [reflexivity | reflexivity | by vm_compute].
Defined.

Lemma run_clamp cfg remote model messages t :
  (run cfg remote model messages t).1
    = (run cfg remote model messages (clamp t)).1
  ∧ tail (run cfg remote model messages t).2
    = tail (run cfg remote model messages (clamp t)).2.
Proof.
  destruct cfg; [|done].
  rewrite !run_configured, clamp_idempotent.
  by destruct (converted messages).
Qed.

(** C3: a call with temperature [t] returns what the call with the clamped
    temperature [max(0.0, min(1.0, t))] returns, and prints and calls the
    same after the first line (which echoes the temperature as given); every
    remote call carries the clamped temperature.  In particular -5 behaves as
    0.0 and 3.7 as 1.0. *)
Theorem C3_temperature_clamped cfg remote model messages t :
  (run cfg remote model messages t).1
    = (run cfg remote model messages (py_max 0%float (py_min 1%float t))).1
  ∧ tail (run cfg remote model messages t).2
    = tail (run cfg remote model messages (py_max 0%float (py_min 1%float t))).2
  ∧ (∀ m c t', GenerateContent m c t' ∈ (run cfg remote model messages t).2 →
               t' = py_max 0%float (py_min 1%float t))
  ∧ (run cfg remote model messages (-5)%float).1
    = (run cfg remote model messages 0%float).1
  ∧ tail (run cfg remote model messages (-5)%float).2
    = tail (run cfg remote model messages 0%float).2
  ∧ (run cfg remote model messages 0x1.d99999999999ap+1%float).1
    = (run cfg remote model messages 1%float).1
  ∧ tail (run cfg remote model messages 0x1.d99999999999ap+1%float).2
    = tail (run cfg remote model messages 1%float).2.
Proof.
  fold (clamp t).
  split; [apply run_clamp|]. split; [apply run_clamp|].
  split.
  { intros m c t' Hin. by apply remote_call_inv in Hin as (_ & _ & _ & _ & ->). }
  pose proof (run_clamp cfg remote model messages (-5)%float) as [H1 H2].
  pose proof (run_clamp cfg remote model messages 0x1.d99999999999ap+1%float) as [H3 H4].
  change (clamp (-5)%float) with 0%float in H1, H2.
  change (clamp 0x1.d99999999999ap+1%float) with 1%float in H3, H4.
  done.
Qed.

(** C4: when the flag is false, [call_llm] returns the pair
    ("Error: Library not configured", None) on every input; it prints two
    lines, calls nothing, and the loop has not run: nothing was skipped and
    [google_contents] is empty. *)
Theorem C4_not_configured remote model messages t :
  run false remote model messages t
    = (Returned (ErrorText "Error: Library not configured" None),
       [LogAttempt model t; LogNotConfigured])
  ∧ remote_calls (run false remote model messages t).2 = []
  ∧ List.filter is_skipping (run false remote model messages t).2 = []
  ∧ google_contents (call_llm false remote model messages t initial).2 = [].
Proof. done. Qed.




(** C6, as the spec words it, fails: the remote service answers with one
    candidate that has no content and with usage metadata; [call_llm]
    returns an error text together with that usage, not with [None]. *)
Lemma C6_counterexample :
  ¬ ∀ r, (run true (remote_answers response_blocked) "m1" [msg_hello] 0%float).1
           = Returned r →
         is_error r = true → result_usage r = None.
Proof.
  intros H.
  specialize (H (ErrorText "Error: Generation finished without content. Reason: SAFETY"
                   (Some usage_5_2)) eq_refl eq_refl).
  discriminate H.
Qed.

(** C6, amended: an error result has usage [None] when no remote call was
    made and when the remote call raised; when the remote call answered (the
    branches without content parts and without candidates), the error result
    carries the usage metadata of the response, [None] only if the response
    has none. *)
Theorem C6_error_usage cfg remote model messages t r :
  (run cfg remote model messages t).1 = Returned r →
  is_error r = true →
  (remote_calls (run cfg remote model messages t).2 = [] → result_usage r = None)
  ∧ (∀ m c t' e,
       GenerateContent m c t' ∈ (run cfg remote model messages t).2 →
       remote m c t' = Raised e → result_usage r = None)
  ∧ (∀ m c t' response,
       GenerateContent m c t' ∈ (run cfg remote model messages t).2 →
       remote m c t' = Returned response →
       result_usage r = usage_metadata response).
Proof.
  intros Hrun Herr. split; [|split].
  - destruct cfg.
    + revert Hrun. rewrite run_configured.
      destruct (converted messages) as [|c0 gc]; simpl.
      * by intros [= <-].
      * intros _ Hnil. exfalso. revert Hnil.
        change (remote_calls (LogAttempt model t :: ?l)) with (remote_calls l).
        rewrite remote_calls_app,
          (filter_no_remote_call _ (skipped_no_remote_call _)).
        discriminate.
    + by injection Hrun as <-.
  - intros m c t' e Hin Hrem.
    apply remote_call_inv in Hin as (-> & Hne & -> & -> & ->).
    revert Hrun. rewrite run_configured.
    destruct (converted messages) as [|c0 gc]; [done|].
    unfold after_call. rewrite Hrem. unfold handlers.
    destruct (exc_type e); [..|destruct (exc__class_name_ e)|];
      cbv [M.bind M.emit M.get_contents M.ret M.raise fst]; by intros [= <-].
  - intros m c t' response Hin Hrem.
    apply remote_call_inv in Hin as (-> & Hne & -> & -> & ->).
    revert Hrun. rewrite run_configured.
    destruct (converted messages) as [|c0 gc]; [done|].
    unfold after_call. rewrite Hrem.
    destruct (extract_returns response) as (r' & ev & -> & _ & Hu).
    by intros [= <-].
Qed.

Lemma C6_error_usage_witness :
  (run true (remote_answers response_blocked) "m1" [msg_hello] 0%float).1
    = Returned (ErrorText "Error: Generation finished without content. Reason: SAFETY"
                  (Some usage_5_2))
  ∧ is_error (ErrorText "Error: Generation finished without content. Reason: SAFETY"
                (Some usage_5_2)) = true
  ∧ GenerateContent "m1" contents_hello 0%float
      ∈ (run true (remote_answers response_blocked) "m1" [msg_hello] 0%float).2
  ∧ remote_answers response_blocked "m1" contents_hello 0%float
      = Returned response_blocked
  ∧ result_usage (ErrorText "Error: Generation finished without content. Reason: SAFETY"
                    (Some usage_5_2))
      = usage_metadata response_blocked.
Proof.
  split; [reflexivity|]. split; [reflexivity|].
  assert (GenerateContent "m1" contents_hello 0%float
            ∈ (run true (remote_answers response_blocked) "m1" [msg_hello] 0%float).2)
    as Hin by (vm_compute; repeat constructor).
  split; [exact Hin|]. split; [reflexivity|].
  exact (proj2 (proj2 (C6_error_usage true (remote_answers response_blocked) "m1"
                         [msg_hello] 0%float _ eq_refl eq_refl))
           "m1" contents_hello 0%float response_blocked Hin eq_refl).
Defined.

(** C7: when the remote call answers with at least one candidate,
    [call_llm] returns the texts of the parts of the first candidate's
    content, joined in order, with the usage metadata of the response; when
    the first candidate has no content, or a content without parts, it
    returns an error text with the finish reason of that candidate, and
    still the usage metadata of the response. *)
Theorem C7_first_candidate cfg remote model messages t m c t' response candidate rest :
  GenerateContent m c t' ∈ (run cfg remote model messages t).2 →
  remote m c t' = Returned response →
  candidates response = candidate :: rest →
  (∀ ct, content candidate = Some ct → parts ct ≠ [] →
     (run cfg remote model messages t).1
       = Returned (Text (String.concat "" (text <$> parts ct))
                     (usage_metadata response)))
  ∧ ((content candidate = None
      ∨ ∃ ct, content candidate = Some ct ∧ parts ct = []) →
     (run cfg remote model messages t).1
       = Returned (ErrorText
                     ("Error: Generation finished without content. Reason: "
                      +:+ py_str (finish_reason candidate))
                     (usage_metadata response))).
Proof.
  intros Hin Hrem Hcand.
  apply remote_call_inv in Hin as (-> & Hne & -> & -> & ->).
  rewrite run_configured.
  destruct (converted messages) as [|c0 gc]; [done|].
  unfold after_call. rewrite Hrem. unfold extract. rewrite Hcand.
  split.
  - intros [rl [|p ps]] -> Hparts; [done|]. reflexivity.
  - intros [-> | ([rl ps] & -> & Hps)]; [reflexivity|].
    simpl in Hps. by subst ps.
Qed.

Lemma C7_first_candidate_witness :
  GenerateContent "m1" contents_hello 0%float
    ∈ (run true (remote_answers response_hi_there) "m1" [msg_hello] 0%float).2
  ∧ remote_answers response_hi_there "m1" contents_hello 0%float
      = Returned response_hi_there
  ∧ candidates response_hi_there = candidate_hi_there :: []
  ∧ (run true (remote_answers response_hi_there) "m1" [msg_hello] 0%float).1
      = Returned (Text "hi there" (Some usage_5_2)).
Proof.
  assert (GenerateContent "m1" contents_hello 0%float
            ∈ (run true (remote_answers response_hi_there) "m1" [msg_hello] 0%float).2)
    as Hin by (vm_compute; repeat constructor).
  split; [exact Hin|]. split; [reflexivity|]. split; [reflexivity|].
  refine (proj1 (C7_first_candidate true (remote_answers response_hi_there) "m1"
                   [msg_hello] 0%float "m1" contents_hello 0%float
                   response_hi_there candidate_hi_there [] Hin eq_refl eq_refl)
            {| role := PyStr "model"; parts := [ {| text := "hi there" |} ] |}
            eq_refl _).
  discriminate.
Defined.

(** The parts are joined in order. *)
Example two_parts_joined :
  (run true
     (remote_answers {| candidates := [candidate_two_parts];
                        prompt_feedback := None;
                        usage_metadata := None |})
     "m1" [msg_hello] 0%float).1
  = Returned (Text "hi there" None).
Proof. reflexivity. Qed.

(** C8: when the remote call raises [ResourceExhausted], [call_llm] returns
    the pair ("Error: Quota Exceeded - " followed by the text of the
    exception, None); the text starts with "Error: Quota Exceeded". *)
Theorem C8_quota_exceeded cfg remote model messages t m c t' e :
  GenerateContent m c t' ∈ (run cfg remote model messages t).2 →
  remote m c t' = Raised e →
  exc_type e = ResourceExhausted →
  ∃ s,
    (run cfg remote model messages t).1 = Returned (ErrorText s None)
    ∧ s = "Error: Quota Exceeded - " +:+ exc_str e
    ∧ String.prefix "Error: Quota Exceeded" s = true.
Proof.
  intros Hin Hrem Hty.
  apply remote_call_inv in Hin as (-> & Hne & -> & -> & ->).
  rewrite run_configured.
  destruct (converted messages) as [|c0 gc]; [done|].
  unfold after_call. rewrite Hrem. unfold handlers. rewrite Hty.
  eexists. split; [reflexivity|]. split; reflexivity.
Qed.

Lemma C8_quota_exceeded_witness :
  GenerateContent "m1" contents_hello 0%float
    ∈ (run true (remote_raises quota_error) "m1" [msg_hello] 0%float).2
  ∧ remote_raises quota_error "m1" contents_hello 0%float = Raised quota_error
  ∧ exc_type quota_error = ResourceExhausted
  ∧ ∃ s,
      (run true (remote_raises quota_error) "m1" [msg_hello] 0%float).1
        = Returned (ErrorText s None)
      ∧ s = "Error: Quota Exceeded - " +:+ exc_str quota_error
      ∧ String.prefix "Error: Quota Exceeded" s = true.
Proof.
  assert (GenerateContent "m1" contents_hello 0%float
            ∈ (run true (remote_raises quota_error) "m1" [msg_hello] 0%float).2)
    as Hin by (vm_compute; repeat constructor).
  split; [exact Hin|]. split; [reflexivity|]. split; [reflexivity|].
  exact (C8_quota_exceeded true (remote_raises quota_error) "m1" [msg_hello]
           0%float "m1" contents_hello 0%float quota_error Hin eq_refl eq_refl).
Defined.

(** C9, as the spec words it, fails: a message with a role and a content
    that is [None] is not dropped; it is converted, with the text "None". *)
Lemma C9_counterexample :
  msg_null_content !! "content" = Some PyNone
  ∧ converted [msg_null_content]
      = [ {| role := PyStr "user"; parts := [ {| text := "None" |} ] |} ]
  ∧ skipped [msg_null_content] = []
  ∧ converted [msg_null_content] ≠ [].
Proof. repeat split; try reflexivity. discriminate. Qed.

(** C9, amended: on every transcript whose values [str] and [repr] render,
    the loop ends without raising; it prints one warning for each message
    that lacks the key 'role' or the key 'content', in order, and nothing
    else, and these messages leave no entry, the converted sequence being
    the one of the transcript without them.  A message that has both keys
    and a content [None] is not one of them: it has an entry, with the text
    "None". *)
Theorem C9_malformed_dropped (messages : list message) :
  Forall printable_message messages →
  (M.for_each messages convert_message initial).1 = Returned tt
  ∧ skipped messages
      = LogSkipping <$> filter (λ msg, ¬ well_formed msg) messages
  ∧ (∀ msg, msg ∈ messages →
       msg !! "role" = None ∨ msg !! "content" = None →
       LogSkipping msg ∈ skipped messages)
  ∧ converted messages = converted (filter well_formed messages)
  ∧ (∀ msg r, msg ∈ messages →
       msg !! "role" = Some r → msg !! "content" = Some PyNone →
       ∃ entry, entry ∈ converted messages
                ∧ parts entry = [ {| text := "None" |} ]).
Proof.
  intros _.
  split; [by rewrite for_each_convert|].
  split; [apply skipped_filter|].
  split.
  { intros msg Hin Hlack. rewrite skipped_filter.
    apply list_elem_of_fmap. exists msg. split; [done|].
    apply list_elem_of_filter. split; [|done].
    unfold well_formed. intros [[? Hr] [? Hc]]. destruct Hlack; congruence. }
  split; [apply converted_filter|].
  intros msg r Hin Hr Hc. rewrite converted_omap.
  eexists. split.
  - apply list_elem_of_omap. exists msg. split; [done|].
    unfold provider_message. by rewrite Hr, Hc.
  - reflexivity.
Qed.

Lemma C9_malformed_dropped_witness :
  Forall printable_message [msg_no_role; msg_null_content; msg_no_content]
  ∧ (M.for_each [msg_no_role; msg_null_content; msg_no_content]
       convert_message initial).1 = Returned tt
  ∧ skipped [msg_no_role; msg_null_content; msg_no_content]
      = [LogSkipping msg_no_role; LogSkipping msg_no_content]
  ∧ converted [msg_no_role; msg_null_content; msg_no_content]
      = [ {| role := PyStr "user"; parts := [ {| text := "None" |} ] |} ].
Proof.
  assert (Forall printable_message [msg_no_role; msg_null_content; msg_no_content])
    as Hp
    by (repeat (apply Forall_cons_2; [apply (bool_decide_unpack _); by vm_compute|]);
        apply Forall_nil_2).
  split; [exact Hp|].
  split; [exact (proj1 (C9_malformed_dropped _ Hp))|].
  split; reflexivity.
Defined.



(** Contents that are not strings are converted too: an integer, a list and
    [None] give their [str]. *)
Example non_string_contents :
  converted [ {[ "role" := PyStr "assistant"; "content" := PyInt 42 ]};
              {[ "role" := PyStr "user";
                 "content" := PyList [PyInt 1; PyStr "a"; PyNone] ]};
              msg_no_role;
              msg_null_content ]
  = [ {| role := PyStr "model"; parts := [ {| text := "42" |} ] |};
      {| role := PyStr "user"; parts := [ {| text := "[1, 'a', None]" |} ] |};
      {| role := PyStr "user"; parts := [ {| text := "None" |} ] |} ].
Proof. reflexivity. Qed.

(** * Further properties of [call_llm] *)

Lemma converted_nil_iff (messages : list message) :
  converted messages = [] ↔ Forall (λ msg, ¬ well_formed msg) messages.
Proof.
  rewrite converted_omap.
  induction messages as [|msg messages IH]; [by split; [constructor|]|].
  change (omap provider_message (msg :: messages))
    with (match provider_message msg with
          | Some c => c :: omap provider_message messages
          | None => omap provider_message messages
          end).
  pose proof (provider_message_Some msg) as Hwf.
  rewrite Forall_cons.
  destruct (provider_message msg) eqn:E.
  - split; [done|]. intros [Hn _]. exfalso. apply Hn, Hwf. by eexists.
  - rewrite IH. split; [|by intros [_ ?]].
    intros H. split; [|done]. intros Hw. apply Hwf in Hw. by destruct Hw.
Qed.

Lemma remote_calls_run cfg remote model messages t :
  remote_calls (run cfg remote model messages t).2
    = (if cfg then
         match converted messages with
         | [] => []
         | _ :: _ => [GenerateContent model (converted messages) (clamp t)]
         end
       else []).
Proof.
  destruct cfg; [|done]. rewrite run_configured.
  destruct (converted messages) as [|c0 gc]; simpl.
  - change (remote_calls (LogAttempt model t :: ?l)) with (remote_calls l).
    by rewrite remote_calls_app,
      (filter_no_remote_call _ (skipped_no_remote_call _)).
  - change (remote_calls (LogAttempt model t :: ?l)) with (remote_calls l).
    rewrite remote_calls_app,
      (filter_no_remote_call _ (skipped_no_remote_call _)).
    change (remote_calls (LogSending ?g :: ?e :: ?l)) with (e :: remote_calls l).
    by rewrite (filter_no_remote_call _ (after_call_no_remote_call _ _ _ _ _)).
Qed.

Lemma converted_cons_iff (messages : list message) :
  converted messages ≠ [] ↔ Exists well_formed messages.
Proof.
  rewrite converted_nil_iff. split.
  - intros H. apply not_Forall_Exists in H; [|apply _].
    apply Exists_exists in H as (msg & Hin & Hwf). apply Exists_exists.
    exists msg. split; [done|]. by apply dec_stable.
  - intros H Hall. apply Exists_exists in H as (msg & Hin & Hwf).
    rewrite Forall_forall in Hall. by apply (Hall msg).
Qed.

(** X1: a call makes at most one remote call, and none when the flag is
    not set or no message has both keys; a remote call that is made carries
    the model name as given, the converted transcript and the clamped
    temperature; on a transcript whose values [str] and [repr] render, with
    the flag set and a message that has both keys, exactly one is made. *)
Theorem at_most_one_remote_call cfg remote model messages t :
  (length (remote_calls (run cfg remote model messages t).2) ≤ 1)%nat
  ∧ (cfg = false ∨ Forall (λ msg, ¬ well_formed msg) messages →
     remote_calls (run cfg remote model messages t).2 = [])
  ∧ (∀ ev, ev ∈ remote_calls (run cfg remote model messages t).2 →
           ev = GenerateContent model (converted messages) (clamp t))
  ∧ (cfg = true → Exists well_formed messages →
     Forall printable_message messages →
     remote_calls (run cfg remote model messages t).2
       = [GenerateContent model (converted messages) (clamp t)]).
Proof.
  rewrite remote_calls_run. repeat split.
  - destruct cfg; [destruct (converted messages)|]; simpl; lia.
  - intros [-> | Hall]; [done|].
    apply converted_nil_iff in Hall. rewrite Hall. by destruct cfg.
  - intros ev. destruct cfg; [destruct (converted messages)|];
      rewrite ?list_elem_of_singleton; set_solver.
  - intros -> Hex _. apply converted_cons_iff in Hex.
    by destruct (converted messages).
Qed.

Lemma ltb_leb (x y : float) : PrimFloat.ltb x y = true → PrimFloat.leb x y = true.
Proof.
  rewrite ltb_spec, leb_spec. unfold SFltb, SFleb.
  by destruct (SFcompare _ _) as [[]|].
Qed.

Lemma clamp_in_range (t : float) :
  PrimFloat.leb 0 (clamp t) = true ∧ PrimFloat.leb (clamp t) 1 = true.
Proof.
  unfold clamp, py_min, py_max.
  destruct (PrimFloat.ltb t 1) eqn:H1; [|done].
  destruct (PrimFloat.ltb 0 t) eqn:H0; [|done].
  split; by apply ltb_leb.
Qed.

(** X2: the temperature of a remote call is always between 0.0 and 1.0,
    whatever float was given: negative, above one, infinite or not a
    number. *)
Theorem sent_temperature_in_range cfg remote model messages t m c t' :
  GenerateContent m c t' ∈ (run cfg remote model messages t).2 →
  PrimFloat.leb 0 t' = true ∧ PrimFloat.leb t' 1 = true.
Proof.
  intros Hin. apply remote_call_inv in Hin as (_ & _ & _ & _ & ->).
  apply clamp_in_range.
Qed.

Lemma sent_temperature_in_range_witness :
  GenerateContent "m1" contents_hello 1%float
    ∈ (run true (remote_answers response_hi_there) "m1" [msg_hello] nan).2
  ∧ PrimFloat.leb 0 1 = true ∧ PrimFloat.leb 1 1 = true.
Proof.
  assert (GenerateContent "m1" contents_hello 1%float
            ∈ (run true (remote_answers response_hi_there) "m1" [msg_hello] nan).2)
    as Hin by (vm_compute; repeat constructor).
  split; [exact Hin|].
  exact (sent_temperature_in_range true (remote_answers response_hi_there) "m1"
           [msg_hello] nan "m1" contents_hello 1%float Hin).
Defined.



(** X4: when the remote call answers without any candidate, [call_llm]
    returns an error text with the block reason of the prompt feedback, or
    with UNKNOWN when the response has no prompt feedback, together with
    the usage metadata of the response. *)
Theorem no_candidates_blocked cfg remote model messages t m c t' response :
  GenerateContent m c t' ∈ (run cfg remote model messages t).2 →
  remote m c t' = Returned response →
  candidates response = [] →
  (run cfg remote model messages t).1
    = Returned (ErrorText
                  ("Error: LLM call failed. Prompt Block Reason: "
                   +:+ match prompt_feedback response with
                       | Some feedback => py_str (block_reason feedback)
                       | None => "UNKNOWN"
                       end)
                  (usage_metadata response)).
Proof.
  intros Hin Hrem Hcand.
  apply remote_call_inv in Hin as (-> & Hne & -> & -> & ->).
  rewrite run_configured.
  destruct (converted messages) as [|c0 gc]; [done|].
  unfold after_call. rewrite Hrem. unfold extract. rewrite Hcand.
  by destruct (prompt_feedback response).
Qed.

Lemma no_candidates_blocked_witness :
  GenerateContent "m1" contents_hello 0%float
    ∈ (run true (remote_answers response_no_candidates) "m1" [msg_hello] 0%float).2
  ∧ remote_answers response_no_candidates "m1" contents_hello 0%float
      = Returned response_no_candidates
  ∧ candidates response_no_candidates = []
  ∧ (run true (remote_answers response_no_candidates) "m1" [msg_hello] 0%float).1
      = Returned (ErrorText "Error: LLM call failed. Prompt Block Reason: SAFETY"
                    (Some usage_5_2)).
Proof.
  assert (GenerateContent "m1" contents_hello 0%float
            ∈ (run true (remote_answers response_no_candidates) "m1"
                 [msg_hello] 0%float).2)
    as Hin by (vm_compute; repeat constructor).
  split; [exact Hin|]. split; [reflexivity|]. split; [reflexivity|].
  exact (no_candidates_blocked true (remote_answers response_no_candidates) "m1"
           [msg_hello] 0%float "m1" contents_hello 0%float response_no_candidates
           Hin eq_refl eq_refl).
Defined.

(** X5: [call_llm] returns a generated text only when the flag is set, some
    message was converted, the remote call answered, and the first candidate
    of the answer has content parts; the text is then the joined texts of
    these parts and the usage the one of the response. *)
Theorem text_only_from_first_candidate cfg remote model messages t s u :
  (run cfg remote model messages t).1 = Returned (Text s u) →
  cfg = true
  ∧ converted messages ≠ []
  ∧ ∃ response candidate rest ct,
      remote model (converted messages) (clamp t) = Returned response
      ∧ candidates response = candidate :: rest
      ∧ content candidate = Some ct
      ∧ parts ct ≠ []
      ∧ s = String.concat "" (text <$> parts ct)
      ∧ u = usage_metadata response.
Proof.
  destruct cfg; [|discriminate]. rewrite run_configured.
  destruct (converted messages) as [|c0 gc]; [discriminate|].
  unfold after_call.
  destruct (remote model (c0 :: gc) (clamp t)) as [response|e].
  - unfold extract.
    destruct (candidates response) as [|candidate rest] eqn:Hc; [discriminate|].
    destruct (content candidate) as [[rl [|p ps]]|] eqn:Hct; try discriminate.
    intros [= <- <-]. split; [done|]. split; [done|].
    by exists response, candidate, rest, {| role := rl; parts := p :: ps |}.
  - unfold handlers.
    destruct (exc_type e); [..|destruct (exc__class_name_ e)|]; discriminate.
Qed.

Lemma text_only_from_first_candidate_witness :
  (run true (remote_answers response_hi_there) "m1" [msg_hello] 0%float).1
    = Returned (Text "hi there" (Some usage_5_2))
  ∧ true = true
  ∧ converted [msg_hello] ≠ []
  ∧ ∃ response candidate rest ct,
      remote_answers response_hi_there "m1" (converted [msg_hello]) (clamp 0%float)
        = Returned response
      ∧ candidates response = candidate :: rest
      ∧ content candidate = Some ct
      ∧ parts ct ≠ []
      ∧ "hi there" = String.concat "" (text <$> parts ct)
      ∧ Some usage_5_2 = usage_metadata response.
Proof.
  split; [reflexivity|].
  exact (text_only_from_first_candidate true (remote_answers response_hi_there)
           "m1" [msg_hello] 0%float "hi there" (Some usage_5_2) eq_refl).
Defined.

(** X6: every error text that [call_llm] returns starts with "Error". *)
Theorem error_text_starts_with_Error cfg remote model messages t s u :
  (run cfg remote model messages t).1 = Returned (ErrorText s u) →
  String.prefix "Error" s = true.
Proof.
  destruct cfg; [|by intros [= <- _]]. rewrite run_configured.
  destruct (converted messages) as [|c0 gc]; [by intros [= <- _]|].
  unfold after_call.
  destruct (remote model (c0 :: gc) (clamp t)) as [response|e].
  - unfold extract.
    destruct (candidates response) as [|candidate rest]; [by intros [= <- _]|].
    destruct (content candidate) as [[rl [|p ps]]|];
      try (by intros [= <- _]); discriminate.
  - unfold handlers.
    destruct (exc_type e); [..|destruct (exc__class_name_ e)|];
      try (by intros [= <- _]); discriminate.
Qed.

Lemma error_text_starts_with_Error_witness :
  (run true (remote_raises quota_error) "m1" [msg_hello] 0%float).1
    = Returned (ErrorText "Error: Quota Exceeded - 429 Resource has been exhausted"
                  None)
  ∧ String.prefix "Error" "Error: Quota Exceeded - 429 Resource has been exhausted"
      = true.
Proof.
  split; [reflexivity|].
  exact (error_text_starts_with_Error true (remote_raises quota_error) "m1"
           [msg_hello] 0%float _ None eq_refl).
Defined.

Lemma converted_elem (messages : list message) (entry : Content) :
  entry ∈ converted messages →
  ∃ msg r c, msg ∈ messages ∧ msg !! "role" = Some r ∧ msg !! "content" = Some c
             ∧ entry = {| role := if py_eq_str r "assistant" then PyStr "model" else r;
                          parts := [ {| text := py_str c |} ] |}.
Proof.
  rewrite converted_omap. intros Hin.
  apply list_elem_of_omap in Hin as (msg & Hmsg & Hpm).
  unfold provider_message in Hpm.
  destruct (msg !! "role") as [r|] eqn:Hr; [|done].
  destruct (msg !! "content") as [c|] eqn:Hc; [|done].
  injection Hpm as <-. by exists msg, r, c.
Qed.

(** X7: no entry sent to the remote service has the role "assistant", and
    every entry sent has exactly one part. *)
Theorem sent_roles_never_assistant cfg remote model messages t m c t' entry :
  GenerateContent m c t' ∈ (run cfg remote model messages t).2 →
  entry ∈ c →
  role entry ≠ PyStr "assistant" ∧ length (parts entry) = 1%nat.
Proof.
  intros Hin Hentry.
  apply remote_call_inv in Hin as (_ & _ & _ & -> & _).
  apply converted_elem in Hentry as (msg & r & ct & _ & _ & _ & ->). simpl.
  split; [|done].
  destruct r as [| | |name|]; try done. simpl.
  destruct (String.eqb_spec name "assistant"); congruence.
Qed.

Lemma sent_roles_never_assistant_witness :
  GenerateContent "m1"
      [ {| role := PyStr "model"; parts := [ {| text := "42" |} ] |} ] 0%float
    ∈ (run true (remote_answers response_hi_there) "m1" [msg_assistant] 0%float).2
  ∧ {| role := PyStr "model"; parts := [ {| text := "42" |} ] |}
      ∈ [ {| role := PyStr "model"; parts := [ {| text := "42" |} ] |} ]
  ∧ PyStr "model" ≠ PyStr "assistant"
  ∧ length [ {| text := "42" |} ] = 1%nat.
Proof.
  assert (GenerateContent "m1"
              [ {| role := PyStr "model"; parts := [ {| text := "42" |} ] |} ] 0%float
            ∈ (run true (remote_answers response_hi_there) "m1"
                 [msg_assistant] 0%float).2)
    as Hin by (vm_compute; repeat constructor).
  assert ({| role := PyStr "model"; parts := [ {| text := "42" |} ] |}
            ∈ [ {| role := PyStr "model"; parts := [ {| text := "42" |} ] |} ])
    as Hentry by repeat constructor.
  split; [exact Hin|]. split; [exact Hentry|].
  exact (sent_roles_never_assistant true (remote_answers response_hi_there) "m1"
           [msg_assistant] 0%float _ _ _ _ Hin Hentry).
Defined.

(** X8: on a transcript whose values [str] and [repr] render, the loop
    accounts for every message once: it is either converted or reported as
    skipped. *)
Theorem converted_or_skipped (messages : list message) :
  Forall printable_message messages →
  (length (converted messages) + length (skipped messages))%nat = length messages.
Proof.
  intros _. rewrite converted_omap, skipped_concat.
  induction messages as [|msg messages IH]; [done|].
  change (omap provider_message (msg :: messages))
    with (match provider_message msg with
          | Some c => c :: omap provider_message messages
          | None => omap provider_message messages
          end).
  rewrite fmap_cons. change (concat (?x :: ?l)) with (x ++ concat l).
  unfold skip_event at 1.
  destruct (provider_message msg); simpl; lia.
Qed.

Lemma converted_or_skipped_witness :
  Forall printable_message [msg_hello; msg_no_role; msg_null_content]
  ∧ (length (converted [msg_hello; msg_no_role; msg_null_content])
     + length (skipped [msg_hello; msg_no_role; msg_null_content]))%nat
    = length [msg_hello; msg_no_role; msg_null_content].
Proof.
  assert (Forall printable_message [msg_hello; msg_no_role; msg_null_content])
    as Hp
    by (repeat (apply Forall_cons_2; [apply (bool_decide_unpack _); by vm_compute|]);
        apply Forall_nil_2).
  split; [exact Hp|].
  exact (converted_or_skipped _ Hp).
Defined.




(** X11: an exception of the remote call that no handler turns into a
    pair leaves [call_llm]: an exception of a class outside [Exception]
    (a [KeyboardInterrupt], say) as itself, since no handler catches it, and
    an exception that only the last handler catches and that has no
    attribute [_class] as the [AttributeError] that this handler raises. *)
Theorem uncaught_exceptions_leave_call_llm cfg remote model messages t m c t' e name :
  GenerateContent m c t' ∈ (run cfg remote model messages t).2 →
  remote m c t' = Raised e →
  (exc_type e = NotAnException name →
     (run cfg remote model messages t).1 = Raised e)
  ∧ (exc_type e = OtherError name → exc__class_name_ e = None →
     (run cfg remote model messages t).1 = Raised (attribute_error e)).
Proof.
  intros Hin Hrem.
  apply remote_call_inv in Hin as (-> & Hne & -> & -> & ->).
  rewrite run_configured.
  destruct (converted messages) as [|c0 gc]; [done|].
  unfold after_call. rewrite Hrem. unfold handlers.
  split.
  - by intros ->.
  - by intros -> ->.
Qed.

Lemma uncaught_exceptions_leave_call_llm_witness :
  GenerateContent "m1" contents_hello 0%float
    ∈ (run true (remote_raises keyboard_interrupt) "m1" [msg_hello] 0%float).2
  ∧ remote_raises keyboard_interrupt "m1" contents_hello 0%float
      = Raised keyboard_interrupt
  ∧ exc_type keyboard_interrupt = NotAnException "KeyboardInterrupt"
  ∧ (run true (remote_raises keyboard_interrupt) "m1" [msg_hello] 0%float).1
      = Raised keyboard_interrupt.
Proof.
  assert (GenerateContent "m1" contents_hello 0%float
            ∈ (run true (remote_raises keyboard_interrupt) "m1"
                 [msg_hello] 0%float).2)
    as Hin by (vm_compute; repeat constructor).
  split; [exact Hin|]. split; [reflexivity|]. split; [reflexivity|].
  exact (proj1 (uncaught_exceptions_leave_call_llm true
                  (remote_raises keyboard_interrupt) "m1" [msg_hello] 0%float
                  "m1" contents_hello 0%float keyboard_interrupt
                  "KeyboardInterrupt" Hin eq_refl) eq_refl).
Defined.

(** * Properties of the module body *)

Lemma configure_key_flag configure environ flag :
  (configure_key configure environ).1 = Returned flag →
  flag = true
  ↔ ∃ api_key, environ !! "GOOGLE_API_KEY" = Some api_key
               ∧ configure api_key = Returned tt.
Proof.
  unfold configure_key.
  destruct (environ !! "GOOGLE_API_KEY") as [api_key|]; simpl.
  - destruct (configure api_key) as [[]|e'] eqn:Hc; simpl.
    + intros [= <-]. split; [|done]. intros _. by exists api_key.
    + destruct (is_key_error e'); [|destruct (is_exception e')]; simpl;
        try discriminate;
        (intros [= <-]; split; [discriminate|];
         intros (k & [= <-] & Hk); congruence).
  - intros [= <-]. split; [discriminate|]. by intros (k & ? & _).
Qed.

(** X12: the import of the module fails with the exception raised when
    [find_dotenv()] raises, and when it finds a [.env] file and
    [load_dotenv] raises on it: neither call is inside a [try]. *)
Theorem import_fails_on_dotenv find_dotenv load_dotenv configure environ e :
  find_dotenv = Raised e
  ∨ (∃ dotenv_path,
        find_dotenv = Returned dotenv_path
        ∧ dotenv_path ≠ ""
        ∧ (load_dotenv (Some dotenv_path) environ).1 = Raised e) →
  init_outcome (module_import find_dotenv load_dotenv configure environ) = Raised e.
Proof.
  intros [-> | (dotenv_path & -> & Hne & Hload)]; [done|].
  unfold module_import, module_body, load_env.
  destruct dotenv_path as [|a path]; [done|].
  destruct (load_dotenv (Some (String a path)) environ) as [o environ'].
  simpl in Hload. by subst o.
Qed.

Lemma import_fails_on_dotenv_witness :
  (Returned ".env" = Raised value_error
   ∨ ∃ dotenv_path,
       Returned ".env" = Returned dotenv_path
       ∧ dotenv_path ≠ ""
       ∧ (load_dotenv_fails (Some dotenv_path) environ_with_key).1
           = Raised value_error)
  ∧ init_outcome (module_import (Returned ".env") load_dotenv_fails configure_ok
                    environ_with_key) = Raised value_error.
Proof.
  assert (Returned ".env" = Raised value_error
          ∨ ∃ dotenv_path,
              @Returned string ".env" = Returned dotenv_path
              ∧ dotenv_path ≠ ""
              ∧ (load_dotenv_fails (Some dotenv_path) environ_with_key).1
                  = Raised value_error) as H.
  { right. exists ".env". split; [reflexivity|]. split; [discriminate|reflexivity]. }
  split; [exact H|].
  exact (import_fails_on_dotenv (Returned ".env") load_dotenv_fails configure_ok
           environ_with_key value_error H).
Defined.

(** X13: when the module loads, the flag is set exactly when the
    environment, as [load_dotenv] left it, has the key GOOGLE_API_KEY and
    [genai.configure] accepts it. *)
Theorem flag_set_iff_key_configured dotenv_path load_dotenv configure environ flag :
  init_outcome (module_body dotenv_path load_dotenv configure environ)
    = Returned flag →
  flag = true
  ↔ ∃ api_key,
      (load_dotenv (match dotenv_path with
                    | EmptyString => None
                    | String _ _ => Some dotenv_path
                    end) environ).2 !! "GOOGLE_API_KEY" = Some api_key
      ∧ configure api_key = Returned tt.
Proof.
  unfold module_body, load_env.
  destruct dotenv_path as [|a path].
  - destruct (load_dotenv None environ) as [[?|e'] environ']; simpl;
      [|destruct (is_exception e'); [|discriminate]];
      destruct (configure_key configure environ') as [f out] eqn:Hck; simpl;
      intros ->; apply configure_key_flag; by rewrite Hck.
  - destruct (load_dotenv (Some (String a path)) environ) as [[?|?] environ'];
      simpl; [|discriminate].
    destruct (configure_key configure environ') as [f out] eqn:Hck; simpl.
    intros ->. apply configure_key_flag. by rewrite Hck.
Qed.

Lemma flag_set_iff_key_configured_witness :
  init_outcome (module_body ".env" load_dotenv_sets_key configure_ok
                  environ_without_key) = Returned true
  ∧ (true = true
     ↔ ∃ api_key,
         (load_dotenv_sets_key (Some ".env") environ_without_key).2
           !! "GOOGLE_API_KEY" = Some api_key
         ∧ configure_ok api_key = Returned tt).
Proof.
  split; [reflexivity|].
  exact (flag_set_iff_key_configured ".env" load_dotenv_sets_key configure_ok
           environ_without_key true eq_refl).
Defined.

(** X14: when the module loads and the environment, as [load_dotenv] left
    it, has no key GOOGLE_API_KEY, every later call returns the pair
    ("Error: Library not configured", None) and makes no remote call. *)
Theorem missing_key_disables_calls
    dotenv_path load_dotenv configure environ flag remote model messages t :
  init_outcome (module_body dotenv_path load_dotenv configure environ)
    = Returned flag →
  init_environ (module_body dotenv_path load_dotenv configure environ)
    !! "GOOGLE_API_KEY" = None →
  (run flag remote model messages t).1
    = Returned (ErrorText "Error: Library not configured" None)
  ∧ remote_calls (run flag remote model messages t).2 = [].
Proof.
  unfold module_body, load_env.
  assert (∀ environ' f, environ' !! "GOOGLE_API_KEY" = None →
                        (configure_key configure environ').1 = Returned f →
                        f = false) as Hkey.
  { intros environ' f Hnone Hck. destruct f; [|done].
    apply configure_key_flag in Hck. destruct Hck as [Hck _].
    destruct (Hck eq_refl) as (k & Hk & _). congruence. }
  destruct dotenv_path as [|a path].
  - destruct (load_dotenv None environ) as [[?|e'] environ']; simpl;
      [|destruct (is_exception e'); [|discriminate]];
      destruct (configure_key configure environ') as [f out] eqn:Hck; simpl;
      intros -> Hnone; rewrite (Hkey environ' flag Hnone); try done;
      by rewrite Hck.
  - destruct (load_dotenv (Some (String a path)) environ) as [[?|?] environ'];
      simpl; [|discriminate].
    destruct (configure_key configure environ') as [f out] eqn:Hck; simpl.
    intros -> Hnone. rewrite (Hkey environ' flag Hnone); try done.
    by rewrite Hck.
Qed.

Lemma missing_key_disables_calls_witness :
  init_outcome (module_body "" load_dotenv_fails configure_ok environ_without_key)
    = Returned false
  ∧ init_environ (module_body "" load_dotenv_fails configure_ok environ_without_key)
      !! "GOOGLE_API_KEY" = None
  ∧ (run false (remote_answers response_hi_there) "m1" [msg_hello] 0%float).1
      = Returned (ErrorText "Error: Library not configured" None)
  ∧ remote_calls
      (run false (remote_answers response_hi_there) "m1" [msg_hello] 0%float).2 = [].
Proof.
  split; [reflexivity|]. split; [reflexivity|].
  exact (missing_key_disables_calls "" load_dotenv_fails configure_ok
           environ_without_key false (remote_answers response_hi_there) "m1"
           [msg_hello] 0%float eq_refl eq_refl).
Defined.

(** X15: when no [.env] file is found, an exception of a class under
    [Exception] that the default [load_dotenv] raises is caught and
    reported, and the body goes on to configure the key from the
    environment: the import does not fail with it. *)
Theorem default_load_failure_is_caught load_dotenv configure environ e :
  (load_dotenv None environ).1 = Raised e →
  is_exception e = true →
  ∃ out,
    module_import (Returned "") load_dotenv configure environ
      = {| init_outcome := (configure_key configure (load_dotenv None environ).2).1;
           init_environ := (load_dotenv None environ).2;
           init_stdout := [InitNotFound; InitDefaultFailed e] ++ out |}
    ∧ init_outcome (module_import (Returned "") load_dotenv configure environ)
        ≠ Raised e.
Proof.
  intros Hload Hexc. unfold module_import, module_body, load_env.
  destruct (load_dotenv None environ) as [o environ']. simpl in *. subst o.
  rewrite Hexc.
  destruct (configure_key configure environ') as [f out] eqn:Hck.
  exists out. split; [done|]. simpl.
  revert Hck. unfold configure_key.
  destruct (match environ' !! "GOOGLE_API_KEY" with
            | Some api_key => configure api_key
            | None => Raised (key_error "GOOGLE_API_KEY")
            end) as [[]|e']; [by intros [= <- _]|].
  destruct (is_key_error e'); [by intros [= <- _]|].
  destruct (is_exception e') eqn:He'; [by intros [= <- _]|].
  intros [= <- _] [= ->]. congruence.
Qed.

Lemma default_load_failure_is_caught_witness :
  (load_dotenv_fails None environ_with_key).1 = Raised value_error
  ∧ is_exception value_error = true
  ∧ ∃ out,
      module_import (Returned "") load_dotenv_fails configure_ok environ_with_key
        = {| init_outcome :=
               (configure_key configure_ok
                  (load_dotenv_fails None environ_with_key).2).1;
             init_environ := (load_dotenv_fails None environ_with_key).2;
             init_stdout := [InitNotFound; InitDefaultFailed value_error] ++ out |}
      ∧ init_outcome
          (module_import (Returned "") load_dotenv_fails configure_ok
             environ_with_key)
        ≠ Raised value_error.
Proof.
  split; [reflexivity|]. split; [reflexivity|].
  exact (default_load_failure_is_caught load_dotenv_fails configure_ok
           environ_with_key value_error eq_refl eq_refl).
Defined.

(** With the key in the environment, the module then loads with the flag
    set. *)
Example default_load_failure_then_configured :
  module_import (Returned "") load_dotenv_fails configure_ok environ_with_key
  = {| init_outcome := Returned true;
       init_environ := environ_with_key;
       init_stdout := [InitNotFound; InitDefaultFailed value_error; InitConfigured] |}.
Proof. reflexivity. Qed.
